(** * useAuth: the authentication context of src/hooks/useAuth.tsx

    A shallow embedding of [AuthProvider]: the three pieces of React state
    ([user], [supabaseUser], [isLoading]), the two callbacks registered by
    the mount effect (the [getCurrentUser] continuation and the
    [onAuthStateChange] listener), and the two actions [signIn] and
    [signOut].  Every [await] is split into the code that runs before the
    provider call and the continuation that runs when the provider's
    promise settles, so that events arriving in between are part of the
    model. *)

From Stdlib Require Import QArith Ascii String.
From stdpp Require Import base option list strings gmap.

Local Open Scope string_scope.
Local Open Scope list_scope.

(** ** JavaScript values

    [user_metadata] is an untyped JSON document; the code only tests its
    fields for truthiness, compares one of them with [===] and otherwise
    copies them, so values are kept as they are. *)

#[local] Set Warnings "-register-all".

Inductive JsVal : Type :=
  | JUndefined
  | JNull
  | JBool (b : bool)
  | JNum (q : Q)
  | JStr (s : string)
  | JArr (items : list JsVal)
  | JObj (fields : list (string * JsVal)).

(** ToBoolean: [undefined], [null], [false], zero and the empty string are
    falsy, every object (arrays included) is truthy. *)
Definition truthy (v : JsVal) : bool :=
  match v with
  | JUndefined | JNull => false
  | JBool b => b
  | JNum q => negb (Qeq_bool q 0)
  | JStr s => negb (String.eqb s "")
  | JArr _ | JObj _ => true
  end.

(** [a || b] *)
Definition js_or (a b : JsVal) : JsVal := if truthy a then a else b.

Infix "||l" := js_or (at level 50, left associativity).

(** [v === 'lit'] for a string literal: no coercion, so only the very same
    string compares equal. *)
Definition strict_eq_str (v : JsVal) (lit : string) : bool :=
  match v with
  | JStr s => String.eqb s lit
  | _ => false
  end.

(** [s.split(sep)] for a one-character separator: the pieces of [s] between
    occurrences of [sep], in order; never empty. *)
Fixpoint split (sep : ascii) (s : string) : list string :=
  match s with
  | EmptyString => [""]
  | String c rest =>
      if Ascii.eqb c sep then "" :: split sep rest
      else match split sep rest with
           | piece :: pieces => String c piece :: pieces
           | [] => [String c ""]
           end
  end.

(** [xs[0]] on an array of strings *)
Definition index0 (xs : list string) : JsVal :=
  match xs with
  | x :: _ => JStr x
  | [] => JUndefined
  end.

(** ** Data model *)

(** The provider's user record ([SupabaseUser]), restricted to the
    attributes the hook reads.  [email] is optional in the provider's type
    and [user_metadata] is reached through [?.] everywhere. *)
Record SupabaseUser : Type := mkSupabaseUser {
  su_id : string;
  su_email : option string;
  user_metadata : option (gmap string JsVal)
}.

(** The session handed to the change listener; only [session.user] is read. *)
Record Session : Type := mkSession {
  session_user : option SupabaseUser
}.

Inductive Role : Type := Admin | Member.

(** The application [User].  The fields copied out of the metadata keep
    whatever value the metadata held. *)
Record User : Type := mkUser {
  id : string;
  email : string;
  password : string;
  fullName : JsVal;
  companyName : JsVal;
  role : Role;
  permissions : JsVal
}.

(** [user.user_metadata?.key]: [undefined] when the metadata or the key is
    missing. *)
Definition metadata_get (u : SupabaseUser) (key : string) : JsVal :=
  match user_metadata u with
  | Some md => default JUndefined (md !! key)
  | None => JUndefined
  end.

(** [user.email || ''] *)
Definition email_or_empty (u : SupabaseUser) : string :=
  match su_email u with
  | Some e => if String.eqb e "" then "" else e
  | None => ""
  end.

(** [user.email?.split('@')[0]] *)
Definition email_local_part (u : SupabaseUser) : JsVal :=
  match su_email u with
  | Some e => index0 (split "@" e)
  | None => JUndefined
  end.

(** Lines 47-55: the [appUser] literal of the [getCurrentUser] continuation. *)
Definition appUser_startup (user : SupabaseUser) : User :=
  {| id := su_id user;
     email := email_or_empty user;
     password := "";
     fullName := metadata_get user "full_name" ||l email_local_part user ||l JStr "";
     companyName := metadata_get user "company_name" ||l JStr "";
     role := if strict_eq_str (metadata_get user "role") "Admin" then Admin else Member;
     permissions := metadata_get user "permissions" ||l JArr [] |}.

(** Lines 65-73: the [appUser] literal of the [onAuthStateChange] listener,
    written over [session.user]. *)
Definition appUser_change (suser : SupabaseUser) : User :=
  {| id := su_id suser;
     email := email_or_empty suser;
     password := "";
     fullName := metadata_get suser "full_name" ||l email_local_part suser ||l JStr "";
     companyName := metadata_get suser "company_name" ||l JStr "";
     role := if strict_eq_str (metadata_get suser "role") "Admin" then Admin else Member;
     permissions := metadata_get suser "permissions" ||l JArr [] |}.

(** ** Component state *)

Record State : Type := mkState {
  user : option User;
  supabaseUser : option SupabaseUser;
  isLoading : bool
}.

(** The three [useState] initial values (lines 37-39). *)
Definition initial : State :=
  {| user := None; supabaseUser := None; isLoading := true |}.

Definition setUser (v : option User) (st : State) : State :=
  {| user := v; supabaseUser := supabaseUser st; isLoading := isLoading st |}.

Definition setSupabaseUser (v : option SupabaseUser) (st : State) : State :=
  {| user := user st; supabaseUser := v; isLoading := isLoading st |}.

Definition setIsLoading (v : bool) (st : State) : State :=
  {| user := user st; supabaseUser := supabaseUser st; isLoading := v |}.

(** [isAuthenticated: !!user] (line 103) *)
Definition isAuthenticated (st : State) : bool :=
  match user st with
  | Some _ => true
  | None => false
  end.

(** ** The mount effect's two callbacks *)

(** How a promise settles. *)
Inductive Settled (A : Type) : Type :=
  | Fulfilled (value : A)
  | Rejected (reason : JsVal).
Arguments Fulfilled {A} value.
Arguments Rejected {A} reason.

(** Lines 43-59: the callback passed to [auth.getCurrentUser().then], applied
    to [data.user].  There is no [else] branch: without a user only
    [setSupabaseUser] and [setIsLoading] run. *)
Definition on_getCurrentUser (data_user : option SupabaseUser) (st : State) : State :=
  let st := setSupabaseUser data_user st in
  let st := match data_user with
            | Some u => setUser (Some (appUser_startup u)) st
            | None => st
            end in
  setIsLoading false st.

(** [session?.user] *)
Definition session_user_opt (session : option Session) : option SupabaseUser :=
  match session with
  | Some s => session_user s
  | None => None
  end.

(** Lines 62-80: the listener passed to [auth.onAuthStateChange].  The event
    kind is received and ignored. *)
Definition on_authStateChange (event : string) (session : option Session)
    (st : State) : State :=
  let st := match session_user_opt session with
            | Some u =>
                let st := setSupabaseUser (Some u) st in
                setUser (Some (appUser_change u)) st
            | None =>
                let st := setUser None st in
                setSupabaseUser None st
            end in
  setIsLoading false st.

(** ** signIn and signOut *)

(** What the provider's [signIn] resolves to.  The hook destructures
    [error] out of it and drops the rest. *)
Record AuthResponse : Type := mkAuthResponse {
  resp_data : JsVal;
  resp_error : JsVal
}.

(** The object [signIn] returns: [{ error }]. *)
Record SignInResult : Type := mkSignInResult {
  error : JsVal
}.

(** How a call of an async function ends. *)
Inductive Completion (A : Type) : Type :=
  | Returned (result : A)
  | Thrown (reason : JsVal).
Arguments Returned {A} result.
Arguments Thrown {A} reason.

(** Line 86: the part of [signIn] that runs before the [await]. *)
Definition signIn_begin (st : State) : State := setIsLoading true st.

(** Lines 87-89: the rest of [signIn], run when [auth.signIn] settles.  A
    rejection leaves the function at the [await]. *)
Definition signIn_resume (outcome : Settled AuthResponse) (st : State)
    : Completion SignInResult * State :=
  match outcome with
  | Fulfilled resp =>
      let error := resp_error resp in
      let st := setIsLoading false st in
      (Returned {| error := error |}, st)
  | Rejected reason => (Thrown reason, st)
  end.

(** Line 93: the part of [signOut] that runs before the [await]. *)
Definition signOut_begin (st : State) : State := setIsLoading true st.

(** Lines 94-97: the rest of [signOut]; the value [auth.signOut] resolves to
    is not looked at. *)
Definition signOut_resume (outcome : Settled JsVal) (st : State)
    : Completion unit * State :=
  match outcome with
  | Fulfilled _ =>
      let st := setUser None st in
      let st := setSupabaseUser None st in
      let st := setIsLoading false st in
      (Returned tt, st)
  | Rejected reason => (Thrown reason, st)
  end.

(** ** Event traces

    Everything that can touch the state between mount and unmount. *)
Inductive Event : Type :=
  | EvStartup (outcome : Settled (option SupabaseUser))
  | EvAuthChange (event : string) (session : option Session)
  | EvSignInCall (email password : string)
  | EvSignInSettled (outcome : Settled AuthResponse)
  | EvSignOutCall
  | EvSignOutSettled (outcome : Settled JsVal).

Definition step (ev : Event) (st : State) : State :=
  match ev with
  | EvStartup (Fulfilled data_user) => on_getCurrentUser data_user st
  | EvStartup (Rejected _) => st
  | EvAuthChange event session => on_authStateChange event session st
  | EvSignInCall _ _ => signIn_begin st
  | EvSignInSettled outcome => snd (signIn_resume outcome st)
  | EvSignOutCall => signOut_begin st
  | EvSignOutSettled outcome => snd (signOut_resume outcome st)
  end.

Fixpoint run (trace : list Event) (st : State) : State :=
  match trace with
  | [] => st
  | ev :: rest => run rest (step ev st)
  end.

(** One whole call of [signIn]: [auth_signIn] is the provider's function and
    [during] the events delivered while the call is awaited. *)
Definition signIn (auth_signIn : string -> string -> Settled AuthResponse)
    (email password : string) (during : list Event) (st : State)
    : Completion SignInResult * State :=
  let st := signIn_begin st in
  let outcome := auth_signIn email password in
  let st := run during st in
  signIn_resume outcome st.

(** One whole call of [signOut]. *)
Definition signOut (auth_signOut : Settled JsVal) (during : list Event)
    (st : State) : Completion unit * State :=
  let st := signOut_begin st in
  let st := run during st in
  signOut_resume auth_signOut st.

(** Which events are what. *)
Definition resolves_session_check (ev : Event) : bool :=
  match ev with
  | EvStartup (Fulfilled _) | EvAuthChange _ _ => true
  | _ => false
  end.

Definition mount_effect_event (ev : Event) : bool :=
  match ev with
  | EvStartup _ | EvAuthChange _ _ => true
  | _ => false
  end.

Definition starts_explicit_call (ev : Event) : bool :=
  match ev with
  | EvSignInCall _ _ | EvSignOutCall => true
  | _ => false
  end.

(** A provider report as both paths see it: a session with its user, or no
    session. *)
Definition Report : Type := option SupabaseUser.

Definition session_of_report (r : Report) : option Session :=
  match r with
  | Some u => Some {| session_user := Some u |}
  | None => None
  end.

(** The state a consumer of the context can see apart from [isLoading]. *)
Definition user_view (st : State) : option User * option SupabaseUser * bool :=
  (user st, supabaseUser st, isAuthenticated st).

(** The substring of [s] before the first [c], written as a relation: [p]
    holds no [c], and [s] is [p] alone or [p] followed by [c] and a rest. *)
Definition before_first (c : ascii) (s p : string) : Prop :=
  (forall q r, p <> q +:+ String c r) /\
  (s = p \/ exists rest, s = p +:+ String c rest).

(** A metadata field is lacking when there is no metadata at all or the
    metadata has no such key. *)
Definition lacks_field (u : SupabaseUser) (key : string) : Prop :=
  match user_metadata u with
  | Some md => md !! key = None
  | None => True
  end.

(** The session of the worked example: [{id:"u1", email:"a@x.com",
    metadata:{}}]. *)
Definition example_session : SupabaseUser :=
  {| su_id := "u1"; su_email := Some "a@x.com"; user_metadata := Some ∅ |}.

Definition example_user : User :=
  {| id := "u1"; email := "a@x.com"; password := "";
     fullName := JStr "a"; companyName := JStr "";
     role := Member; permissions := JArr [] |}.

(** A session whose metadata carries the Admin role. *)
Definition admin_session : SupabaseUser :=
  {| su_id := "u2"; su_email := Some "root@corp.example";
     user_metadata := Some {[ "role" := JStr "Admin" ]} |}.

(** A provider that refuses every credential. *)
Definition refusing_provider (email password : string) : Settled AuthResponse :=
  Fulfilled {| resp_data := JNull;
               resp_error := JObj [("message", JStr "Invalid login credentials")] |}.

(** Two states holding the same application user and provider user. *)
Definition same_users (st1 st2 : State) : Prop :=
  user st1 = user st2 /\ supabaseUser st1 = supabaseUser st2.

(** The application user, if any, has the empty password. *)
Definition password_empty (st : State) : Prop :=
  forall au, user st = Some au -> password au = "".

(** ** The context object and the [useAuth] hook *)

(** [AuthContextType] (lines 6-13).  The two function fields take what the
    functions of [AuthProvider] close over: the provider's call, the events
    delivered during the [await] and the component state. *)
Record AuthContextType : Type := mkAuthContext {
  ctx_user : option User;
  ctx_supabaseUser : option SupabaseUser;
  ctx_isAuthenticated : bool;
  ctx_isLoading : bool;
  ctx_signIn : (string -> string -> Settled AuthResponse) ->
               string -> string -> list Event -> State ->
               Completion SignInResult * State;
  ctx_signOut : Settled JsVal -> list Event -> State -> Completion unit * State
}.

(** Lines 15-22: the default value given to [createContext].  Its [signIn]
    answers [{ error: null }] and its [signOut] does nothing; neither calls
    the provider nor touches any state. *)
Definition AuthContext_default : AuthContextType :=
  {| ctx_user := None;
     ctx_supabaseUser := None;
     ctx_isAuthenticated := false;
     ctx_isLoading := true;
     ctx_signIn := fun _ _ _ _ st => (Returned {| error := JNull |}, st);
     ctx_signOut := fun _ _ st => (Returned tt, st) |}.

(** Lines 100-107: the [value] object [AuthProvider] hands to
    [AuthContext.Provider]. *)
Definition provider_value (st : State) : AuthContextType :=
  {| ctx_user := user st;
     ctx_supabaseUser := supabaseUser st;
     ctx_isAuthenticated := isAuthenticated st;
     ctx_isLoading := isLoading st;
     ctx_signIn := signIn;
     ctx_signOut := signOut |}.

(** [useContext(AuthContext)]: the value of the nearest enclosing provider,
    the default value when there is none.  [AuthContext] is not exported, so
    the only providers are [AuthProvider] instances; [ancestors] lists their
    states, nearest first.  The result is an object or nothing ([None] for
    a falsy value), which is what [!context] tests. *)
Definition useContext (ancestors : list State) : option AuthContextType :=
  match ancestors with
  | st :: _ => Some (provider_value st)
  | [] => Some AuthContext_default
  end.

(** Lines 24-30 *)
Definition useAuth (ancestors : list State) : Completion AuthContextType :=
  let context := useContext ancestors in
  match context with
  | None =>
      Thrown (JObj [("message", JStr "useAuth must be used within an AuthProvider")])
  | Some context => Returned context
  end.

(** ** What each event writes

    Summaries of [step], field by field: the value an event stores in a
    field, or [None] when it leaves the field alone. *)

Definition user_write (ev : Event) : option (option User) :=
  match ev with
  | EvStartup (Fulfilled (Some u)) => Some (Some (appUser_startup u))
  | EvAuthChange _ session => Some (appUser_change <$> session_user_opt session)
  | EvSignOutSettled (Fulfilled _) => Some None
  | _ => None
  end.

Definition supabaseUser_write (ev : Event) : option (option SupabaseUser) :=
  match ev with
  | EvStartup (Fulfilled data_user) => Some data_user
  | EvAuthChange _ session => Some (session_user_opt session)
  | EvSignOutSettled (Fulfilled _) => Some None
  | _ => None
  end.

Definition isLoading_write (ev : Event) : option bool :=
  match ev with
  | EvStartup (Fulfilled _) | EvAuthChange _ _ => Some false
  | EvSignInCall _ _ | EvSignOutCall => Some true
  | EvSignInSettled (Fulfilled _) | EvSignOutSettled (Fulfilled _) => Some false
  | _ => None
  end.

(** The value written by the latest event of the trace that writes at all. *)
Fixpoint last_write {A : Type} (write : Event -> option A) (trace : list Event)
    : option A :=
  match trace with
  | [] => None
  | ev :: rest =>
      match last_write write rest with
      | Some v => Some v
      | None => write ev
      end
  end.

(** The provider user an event carries, if any. *)
Definition carried_user (ev : Event) : option SupabaseUser :=
  match ev with
  | EvStartup (Fulfilled data_user) => data_user
  | EvAuthChange _ session => session_user_opt session
  | _ => None
  end.

(** Whenever a provider user is held, the application user is its mapping. *)
Definition provider_user_mapped (st : State) : Prop :=
  forall su, supabaseUser st = Some su -> user st = Some (appUser_startup su).

(** A session whose metadata holds an empty display name. *)
Definition blank_name_session : SupabaseUser :=
  {| su_id := "u3"; su_email := Some "kim@x.com";
     user_metadata := Some {[ "full_name" := JStr "" ]} |}.

(** The example session without any metadata and with its email unchanged. *)
Definition bare_session : SupabaseUser :=
  {| su_id := "u1"; su_email := Some "a@x.com"; user_metadata := None |}.

(** A provider whose [signIn] promise rejects. *)
Definition failing_provider (email password : string) : Settled AuthResponse :=
  Rejected (JObj [("message", JStr "Failed to fetch")]).

(** A provider that accepts every credential. *)
Definition accepting_provider (email password : string) : Settled AuthResponse :=
  Fulfilled {| resp_data := JNull; resp_error := JNull |}.

(** The events after which [isLoading] is false: a session check that
    resolves, and a [signIn] or [signOut] whose provider promise fulfils. *)
Definition clears_loading (ev : Event) : bool :=
  match ev with
  | EvStartup (Fulfilled _) | EvAuthChange _ _ => true
  | EvSignInSettled (Fulfilled _) | EvSignOutSettled (Fulfilled _) => true
  | _ => false
  end.

(** * Properties of the mapping *)

Section Mapping.

Implicit Types (u : SupabaseUser) (key : string).

Lemma lacks_field_get u key : lacks_field u key -> metadata_get u key = JUndefined.
Proof.
  unfold lacks_field, metadata_get.
  destruct (user_metadata u) as [md|]; [intros ->|]; reflexivity.
Qed.

Lemma js_or_undefined v : JUndefined ||l v = v.
Proof. reflexivity. Qed.

(** Both [||] fallbacks onto a string literal give back the string, empty
    or not. *)
Lemma js_or_str_empty s : JStr s ||l JStr "" = JStr s.
Proof.
  unfold js_or; simpl.
  destruct (String.eqb_spec s ""); simpl; congruence.
Qed.

(** The two object literals are the same function of the provider user. *)
Lemma appUser_paths_agree u : appUser_startup u = appUser_change u.
Proof. reflexivity. Qed.

Lemma split_nonempty c s : split c s <> [].
Proof.
  destruct s as [|a s]; simpl; [discriminate|].
  destruct (Ascii.eqb a c); [discriminate|].
  destruct (split c s); discriminate.
Qed.

(** The first piece of [split] is the substring before the first
    separator. *)
Lemma split_head c s :
  exists p pieces, split c s = p :: pieces /\ before_first c s p.
Proof.
  induction s as [|a s (p & pieces & Hsplit & Hfree & Hshape)]; simpl.
  - exists "", []. repeat split; [|by left].
    intros [|b q] r; discriminate.
  - destruct (Ascii.eqb_spec a c) as [->|Hne].
    + exists "", (split c s). repeat split.
      * intros [|b q] r; discriminate.
      * right. by exists s.
    + rewrite Hsplit. exists (String a p), pieces. repeat split.
      * intros [|b q] r; simpl; intros Heq; inversion Heq; subst.
        -- by apply Hne.
        -- by eapply Hfree.
      * destruct Hshape as [->|[rest ->]]; [by left|].
        right. by exists rest.
Qed.

Lemma role_startup_cases u :
  role (appUser_startup u)
  = if strict_eq_str (metadata_get u "role") "Admin" then Admin else Member.
Proof. reflexivity. Qed.

Lemma strict_eq_str_true v lit : strict_eq_str v lit = true <-> v = JStr lit.
Proof.
  destruct v; simpl; try (split; [discriminate|congruence]).
  rewrite String.eqb_eq. split; congruence.
Qed.

(** C3: on both paths the mapped role is Admin exactly when the metadata
    role is the string "Admin"; with any other value, and with the field
    lacking, it is Member. *)
Theorem role_admin_iff_metadata_admin u :
  (role (appUser_startup u) = Admin <-> metadata_get u "role" = JStr "Admin") /\
  (role (appUser_change u) = Admin <-> metadata_get u "role" = JStr "Admin") /\
  (role (appUser_startup u) = Member <-> metadata_get u "role" <> JStr "Admin") /\
  (role (appUser_change u) = Member <-> metadata_get u "role" <> JStr "Admin") /\
  (lacks_field u "role" ->
   role (appUser_startup u) = Member /\ role (appUser_change u) = Member).
Proof.
  change (appUser_change u) with (appUser_startup u).
  rewrite role_startup_cases.
  pose proof (strict_eq_str_true (metadata_get u "role") "Admin") as Hiff.
  destruct (strict_eq_str (metadata_get u "role") "Admin").
  - assert (metadata_get u "role" = JStr "Admin") as Hadmin by by apply Hiff.
    split_and!; try (split; done).
    intros Hlack%lacks_field_get. congruence.
  - assert (metadata_get u "role" <> JStr "Admin") as Hother.
    { intros Heq. apply Hiff in Heq. discriminate. }
    split_and!; try (split; done).
Qed.

Lemma role_admin_iff_metadata_admin_example :
  role (appUser_startup admin_session) = Admin /\
  role (appUser_change example_session) = Member.
Proof.
  destruct (role_admin_iff_metadata_admin admin_session) as (Hadmin & _).
  destruct (role_admin_iff_metadata_admin example_session) as (_ & _ & _ & _ & Hlack).
  split; [apply Hadmin; reflexivity | apply Hlack; reflexivity].
Defined.

(** C4: when the metadata lacks [full_name], the mapped display name on both
    paths is the substring of the session's email before the first "@" (of
    the empty string when the session has no email). *)
Theorem fullName_is_email_local_part u :
  lacks_field u "full_name" ->
  exists p,
    fullName (appUser_startup u) = JStr p /\
    fullName (appUser_change u) = JStr p /\
    before_first "@" (default "" (su_email u)) p.
Proof.
  intros Hlack. change (appUser_change u) with (appUser_startup u).
  unfold appUser_startup; simpl.
  rewrite (lacks_field_get _ _ Hlack), js_or_undefined.
  unfold email_local_part.
  destruct (su_email u) as [e|]; simpl.
  - destruct (split_head "@" e) as (p & pieces & -> & Hp).
    exists p. simpl. by rewrite js_or_str_empty.
  - exists "". repeat split; [|by left].
    intros [|b q] r; discriminate.
Qed.

Lemma fullName_is_email_local_part_example :
  lacks_field example_session "full_name" /\
  exists p,
    fullName (appUser_startup example_session) = JStr p /\
    fullName (appUser_change example_session) = JStr p /\
    before_first "@" (default "" (su_email example_session)) p.
Proof.
  split; [reflexivity|].
  apply (fullName_is_email_local_part example_session). reflexivity.
Defined.

(** C9: the session [{id:"u1", email:"a@x.com", metadata:{}}] maps, on both
    paths, to the user with fullName "a", companyName "", role Member and
    no permissions; in general a lacking company name gives "" and lacking
    permissions give the empty list. *)
Theorem example_session_maps_to_example_user :
  appUser_startup example_session = example_user /\
  appUser_change example_session = example_user /\
  (forall u, lacks_field u "company_name" ->
     companyName (appUser_startup u) = JStr "" /\
     companyName (appUser_change u) = JStr "") /\
  (forall u, lacks_field u "permissions" ->
     permissions (appUser_startup u) = JArr [] /\
     permissions (appUser_change u) = JArr []).
Proof.
  split_and!; try reflexivity.
  - intros u Hlack%lacks_field_get. simpl. by rewrite Hlack.
  - intros u Hlack%lacks_field_get. simpl. by rewrite Hlack.
Qed.

Lemma example_session_defaults :
  companyName (appUser_startup example_session) = JStr "" /\
  permissions (appUser_change example_session) = JArr [].
Proof.
  destruct example_session_maps_to_example_user as (_ & _ & Hcompany & Hperms).
  split; [apply Hcompany | apply Hperms]; reflexivity.
Defined.

End Mapping.

(** * Properties of the state transitions *)

Section Transitions.

Implicit Types (st : State) (ev : Event) (tr during : list Event).

(** ** The two session callbacks side by side *)

Lemma on_authStateChange_no_session event st :
  on_authStateChange event None st
  = {| user := None; supabaseUser := None; isLoading := false |}.
Proof. reflexivity. Qed.

Lemma on_getCurrentUser_no_session st :
  on_getCurrentUser None st
  = {| user := user st; supabaseUser := None; isLoading := false |}.
Proof. reflexivity. Qed.

(** With a session the two callbacks build the same state. *)
Lemma callbacks_agree_on_session event u st :
  on_getCurrentUser (Some u) st
  = on_authStateChange event (session_of_report (Some u)) st.
Proof. reflexivity. Qed.

(** Without a session they agree as long as no application user is held,
    which covers a startup fetch that resolves before any change event. *)
Lemma callbacks_agree_when_signed_out event (r : Report) st :
  user st = None ->
  on_getCurrentUser r st = on_authStateChange event (session_of_report r) st.
Proof.
  destruct r as [u|]; [reflexivity|].
  rewrite on_authStateChange_no_session, on_getCurrentUser_no_session.
  by intros ->.
Qed.

(** ** Frame and invariant lemmas over traces *)

(** [isLoading] never feeds back into the two user fields. *)
Lemma step_same_users ev st1 st2 :
  same_users st1 st2 -> same_users (step ev st1) (step ev st2).
Proof.
  intros [Hu Hs].
  destruct ev as [[[u|]|]| ? session |? ?|[?|]| |[?|]];
    unfold same_users; cbn;
    try destruct (session_user_opt session); cbn; done.
Qed.

Lemma run_same_users tr : forall st1 st2,
  same_users st1 st2 -> same_users (run tr st1) (run tr st2).
Proof.
  induction tr as [|ev tr IH]; simpl; [done|].
  intros st1 st2 Hsame. by apply IH, step_same_users.
Qed.

Lemma step_password_empty ev st : password_empty st -> password_empty (step ev st).
Proof.
  intros Hinv au.
  destruct ev as [[[u|]|]| ? session |? ?|[?|]| |[?|]]; cbn;
    try destruct (session_user_opt session); cbn;
    first [apply Hinv | by intros [= <-] | done].
Qed.

Lemma run_password_empty tr : forall st,
  password_empty st -> password_empty (run tr st).
Proof.
  induction tr as [|ev tr IH]; simpl; [done|].
  intros st Hinv. by apply IH, step_password_empty.
Qed.

(** While only the mount effect's callbacks run, [isLoading] is cleared by
    the first session check that resolves and stays cleared. *)
Lemma run_mount_effect_isLoading tr : forall st,
  forallb mount_effect_event tr = true ->
  isLoading (run tr st)
  = if existsb resolves_session_check tr then false else isLoading st.
Proof.
  induction tr as [|ev tr IH]; simpl; [done|].
  intros st [Hev Htr]%andb_prop.
  rewrite (IH _ Htr).
  destruct ev as [[?|?]| ? ? |? ?|?| |?]; try discriminate; simpl;
    by destruct (existsb resolves_session_check tr).
Qed.

Lemma step_from_not_loading ev st :
  isLoading st = false ->
  isLoading (step ev st) = starts_explicit_call ev.
Proof.
  intros Hst.
  destruct ev as [[?|?]| ? ? |? ?|[?|?]| |[?|?]];
    first [reflexivity | exact Hst].
Qed.

(** ** The claims *)

(** C1: the startup callback and the change listener do not treat "no
    session" alike.  From the state left by a change event that carried
    the example session, the startup callback keeps the application user
    (and [isAuthenticated]) while the listener clears it. *)
Theorem startup_and_listener_differ_without_session :
  let st := run [EvAuthChange "INITIAL_SESSION"
                   (session_of_report (Some example_session))] initial in
  user_view (on_getCurrentUser None st) = (Some example_user, None, true) /\
  user_view (on_authStateChange "SIGNED_OUT" (session_of_report None) st)
  = (None, None, false).
Proof. split; reflexivity. Qed.

(** C2: after the startup fetch reports no session the application user can
    still be present: the listener delivers the example session first, the
    startup fetch then resolves without a user, and the state ends with the
    provider user absent but the application user kept and
    [isAuthenticated] true. *)
Theorem startup_no_session_keeps_application_user :
  let st := run [EvAuthChange "INITIAL_SESSION"
                   (session_of_report (Some example_session));
                 EvStartup (Fulfilled None)] initial in
  user st = Some example_user /\
  supabaseUser st = None /\
  isAuthenticated st = true /\
  isLoading st = false.
Proof. repeat split; reflexivity. Qed.

(** C5: whatever the provider's sign-out call resolves to, whatever the
    prior state and whatever arrives while the call is awaited, [signOut]
    returns with the application user and the provider user absent and
    [isLoading] false, having set [isLoading] before the call. *)
Theorem signOut_clears_user_state (resp : JsVal) during st :
  isLoading (signOut_begin st) = true /\
  signOut (Fulfilled resp) during st
  = (Returned tt, {| user := None; supabaseUser := None; isLoading := false |}).
Proof. split; reflexivity. Qed.

(** C8: both mappings leave the password empty, and no state reached from
    the initial one by any sequence of events holds an application user
    with another password. *)
Theorem password_always_empty (su : SupabaseUser) tr (au : User) :
  password (appUser_startup su) = "" /\
  password (appUser_change su) = "" /\
  (user (run tr initial) = Some au -> password au = "").
Proof.
  split_and!; [reflexivity..|].
  apply (run_password_empty tr initial). intros ? [=].
Qed.

Lemma password_always_empty_example :
  password example_user = "".
Proof.
  apply (password_always_empty example_session
           [EvStartup (Fulfilled (Some example_session))] example_user).
  reflexivity.
Defined.

(** C10: [signIn] itself never writes the application user or the provider
    user.  Whatever the provider does, after the call both fields are what
    the events delivered meanwhile made of them, and with no such event the
    whole state differs from the prior one in [isLoading] only. *)
Theorem signIn_leaves_user_state
    (auth_signIn : string -> string -> Settled AuthResponse)
    (email password : string) during st :
  user (signIn_begin st) = user st /\
  supabaseUser (signIn_begin st) = supabaseUser st /\
  user (snd (signIn auth_signIn email password during st))
  = user (run during st) /\
  supabaseUser (snd (signIn auth_signIn email password during st))
  = supabaseUser (run during st) /\
  snd (signIn auth_signIn email password [] st)
  = setIsLoading (match auth_signIn email password with
                  | Fulfilled _ => false
                  | Rejected _ => true
                  end) st.
Proof.
  assert (same_users (run during (signIn_begin st)) (run during st)) as [Hu Hs].
  { by apply run_same_users. }
  unfold signIn.
  destruct (auth_signIn email password); simpl; rewrite ?Hu, ?Hs; done.
Qed.

(** When the provider's promise rejects instead of resolving to a response,
    the rejection surfaces from [signIn] and [signOut] and the code after
    the [await] does not run. *)
Lemma rejection_propagates reason email password during st :
  signIn (fun _ _ => Rejected reason) email password during st
  = (Thrown reason, run during (signIn_begin st)) /\
  signOut (Rejected reason) during st
  = (Thrown reason, run during (signOut_begin st)).
Proof. split; reflexivity. Qed.

End Transitions.

(** * Further properties of the mapping *)

Section MappingDefaults.

Implicit Types (u : SupabaseUser) (a b c : JsVal).

Lemma js_or_assoc a b c : (a ||l b) ||l c = a ||l (b ||l c).
Proof.
  unfold js_or. destruct (truthy a) eqn:Ha; [by rewrite Ha|done].
Qed.

Lemma js_or_truthy a b : truthy a = true -> a ||l b = a.
Proof. unfold js_or. by intros ->. Qed.

Lemma js_or_falsy a b : truthy a = false -> a ||l b = b.
Proof. unfold js_or. by intros ->. Qed.

Lemma email_or_empty_default u : email_or_empty u = default "" (su_email u).
Proof.
  unfold email_or_empty. destruct (su_email u) as [e|]; simpl; [|done].
  by destruct (String.eqb_spec e "").
Qed.

(** An absent email and an empty one give the same local part once the
    final [|| ''] has run. *)
Lemma local_part_or_empty u :
  email_local_part u ||l JStr "" = index0 (split "@" (default "" (su_email u))).
Proof.
  unfold email_local_part. destruct (su_email u) as [e|]; simpl; [|done].
  destruct (split_head "@" e) as (p & pieces & -> & _). simpl.
  apply js_or_str_empty.
Qed.

Lemma fullName_unfold u :
  fullName (appUser_startup u)
  = metadata_get u "full_name" ||l index0 (split "@" (default "" (su_email u))).
Proof.
  unfold appUser_startup; simpl. by rewrite js_or_assoc, local_part_or_empty.
Qed.

(** X1: the display name follows truthiness, not presence.  A truthy
    [full_name] is copied as it is, on both paths; any falsy one (absent,
    null, false, zero, the empty string) gives the substring of the email
    before the first "@". *)
Theorem fullName_precedence u :
  (truthy (metadata_get u "full_name") = true ->
   fullName (appUser_startup u) = metadata_get u "full_name" /\
   fullName (appUser_change u) = metadata_get u "full_name") /\
  (truthy (metadata_get u "full_name") = false ->
   exists p,
     fullName (appUser_startup u) = JStr p /\
     fullName (appUser_change u) = JStr p /\
     before_first "@" (default "" (su_email u)) p).
Proof.
  change (appUser_change u) with (appUser_startup u).
  rewrite fullName_unfold. split; intros Hname.
  - by rewrite (js_or_truthy _ _ Hname).
  - rewrite (js_or_falsy _ _ Hname).
    destruct (split_head "@" (default "" (su_email u))) as (p & pieces & -> & Hp).
    by exists p.
Qed.

Lemma fullName_precedence_example :
  exists p,
    fullName (appUser_startup blank_name_session) = JStr p /\
    fullName (appUser_change blank_name_session) = JStr p /\
    before_first "@" (default "" (su_email blank_name_session)) p.
Proof.
  apply (proj2 (fullName_precedence blank_name_session)). reflexivity.
Defined.

(** X2: the three fields filled from the metadata are never left undefined
    or null: the display name and the company name are truthy or the empty
    string, and the permissions are always truthy (an array when the
    metadata gave nothing usable, otherwise whatever the metadata held). *)
Theorem mapped_fields_defined u :
  (truthy (fullName (appUser_startup u)) = true \/
   fullName (appUser_startup u) = JStr "") /\
  (truthy (companyName (appUser_startup u)) = true \/
   companyName (appUser_startup u) = JStr "") /\
  truthy (permissions (appUser_startup u)) = true /\
  (truthy (metadata_get u "permissions") = false ->
   permissions (appUser_startup u) = JArr []) /\
  appUser_change u = appUser_startup u.
Proof.
  split_and!; [| | | |reflexivity].
  - rewrite fullName_unfold.
    destruct (split_head "@" (default "" (su_email u))) as (p & pieces & -> & _).
    simpl. unfold js_or.
    destruct (truthy (metadata_get u "full_name")) eqn:Hname; [by left|].
    simpl. destruct (String.eqb_spec p ""); [right; congruence|by left].
  - simpl. unfold js_or.
    destruct (truthy (metadata_get u "company_name")) eqn:Hco; [by left|by right].
  - simpl. unfold js_or.
    by destruct (truthy (metadata_get u "permissions")) eqn:Hperm.
  - intros Hperm. simpl. by apply js_or_falsy.
Qed.

Lemma mapped_fields_defined_example :
  permissions (appUser_startup bare_session) = JArr [].
Proof.
  apply (mapped_fields_defined bare_session). reflexivity.
Defined.

(** X3: the mapping reads the id, the email and four metadata keys and
    nothing else.  Two provider users that agree on those (an absent email
    counting as the empty one, absent metadata as metadata without the
    keys) map to the same application user. *)
Theorem mapping_reads_six_attributes u1 u2 :
  su_id u1 = su_id u2 ->
  default "" (su_email u1) = default "" (su_email u2) ->
  metadata_get u1 "full_name" = metadata_get u2 "full_name" ->
  metadata_get u1 "company_name" = metadata_get u2 "company_name" ->
  metadata_get u1 "role" = metadata_get u2 "role" ->
  metadata_get u1 "permissions" = metadata_get u2 "permissions" ->
  appUser_startup u1 = appUser_startup u2 /\
  appUser_change u1 = appUser_change u2.
Proof.
  intros Hid Hemail Hname Hco Hrole Hperm.
  change (appUser_change u1) with (appUser_startup u1).
  change (appUser_change u2) with (appUser_startup u2).
  assert (appUser_startup u1 = appUser_startup u2) as Heq; [|by rewrite Heq].
  pose proof (fullName_unfold u1) as Hf1.
  pose proof (fullName_unfold u2) as Hf2.
  unfold appUser_startup in *; simpl in *.
  rewrite Hf1, Hf2, !email_or_empty_default.
  by rewrite Hid, Hemail, Hname, Hco, Hrole, Hperm.
Qed.

Lemma mapping_reads_six_attributes_example :
  appUser_startup bare_session = appUser_startup example_session /\
  appUser_change bare_session = appUser_change example_session.
Proof.
  apply (mapping_reads_six_attributes bare_session example_session);
    reflexivity.
Defined.

End MappingDefaults.

(** * Further properties of the transitions *)

Section Traces.

Implicit Types (st : State) (ev : Event) (tr during : list Event).

Lemma run_app tr1 tr2 : forall st, run (tr1 ++ tr2) st = run tr2 (run tr1 st).
Proof.
  induction tr1 as [|ev tr1 IH]; simpl; [done|]. intros st. apply IH.
Qed.

(** A field whose every step either stores what the event writes or keeps
    its value ends, after a trace, at the last write. *)
Lemma run_last_write {A : Type} (field : State -> A) (write : Event -> option A) :
  (forall ev st, field (step ev st) = default (field st) (write ev)) ->
  forall tr st, field (run tr st) = default (field st) (last_write write tr).
Proof.
  intros Hstep. induction tr as [|ev tr IH]; simpl; [done|].
  intros st. rewrite IH, Hstep.
  by destruct (last_write write tr).
Qed.

Lemma step_user_write ev st : user (step ev st) = default (user st) (user_write ev).
Proof.
  destruct ev as [[[u|]|]| ? session |? ?|[?|]| |[?|]]; cbn;
    try destruct (session_user_opt session); done.
Qed.

Lemma step_supabaseUser_write ev st :
  supabaseUser (step ev st) = default (supabaseUser st) (supabaseUser_write ev).
Proof.
  destruct ev as [[[u|]|]| ? session |? ?|[?|]| |[?|]]; cbn;
    try destruct (session_user_opt session); done.
Qed.

Lemma step_isLoading_write ev st :
  isLoading (step ev st) = default (isLoading st) (isLoading_write ev).
Proof.
  destruct ev as [[?|?]| ? ? |? ?|[?|?]| |[?|?]]; reflexivity.
Qed.

Lemma step_provider_user_mapped ev st :
  provider_user_mapped st -> provider_user_mapped (step ev st).
Proof.
  intros Hinv su.
  destruct ev as [[[u|]|]| ? session |? ?|[?|]| |[?|]]; cbn;
    try destruct (session_user_opt session); cbn;
    first [apply Hinv | by intros [= <-] | done].
Qed.

Lemma run_provider_user_mapped tr : forall st,
  provider_user_mapped st -> provider_user_mapped (run tr st).
Proof.
  induction tr as [|ev tr IH]; simpl; [done|].
  intros st Hinv. by apply IH, step_provider_user_mapped.
Qed.

(** Where a held application user comes from: one step. *)
Lemma step_user_origin ev st au :
  user (step ev st) = Some au ->
  user st = Some au \/
  exists su, carried_user ev = Some su /\ au = appUser_startup su.
Proof.
  destruct ev as [[[u|]|]| ? session |? ?|[?|]| |[?|]]; cbn;
    try destruct (session_user_opt session) as [u|]; cbn;
    first [by left | intros [= <-]; right; by eexists | done].
Qed.

Lemma run_user_origin tr : forall st au,
  user (run tr st) = Some au ->
  user st = Some au \/
  exists su, su ∈ omap carried_user tr /\ au = appUser_startup su.
Proof.
  induction tr as [|ev tr IH]; simpl; [by left|].
  intros st au [Hstep|(su & Hin & ->)]%IH.
  - apply step_user_origin in Hstep as [?|(su & Hsu & ->)]; [by left|].
    right. exists su. rewrite Hsu. split; [left|done].
  - right. exists su. split; [|done].
    destruct (carried_user ev); [by right|done].
Qed.

(** X4: last write wins, field by field and over every trace.  Each of
    [user], [supabaseUser] and [isLoading] ends at the value stored by the
    latest event that writes it, or at its prior value when no event does.
    A startup fetch without a user writes [supabaseUser] and [isLoading]
    but not [user]; a rejected promise writes nothing. *)
Theorem last_write_wins tr st :
  user (run tr st) = default (user st) (last_write user_write tr) /\
  supabaseUser (run tr st)
  = default (supabaseUser st) (last_write supabaseUser_write tr) /\
  isLoading (run tr st) = default (isLoading st) (last_write isLoading_write tr).
Proof.
  split_and!.
  - apply (run_last_write user user_write), step_user_write.
  - apply (run_last_write supabaseUser supabaseUser_write), step_supabaseUser_write.
  - apply (run_last_write isLoading isLoading_write), step_isLoading_write.
Qed.

(** X5: in every state reached from the initial one, a held provider user
    comes with its application user: [supabaseUser] present means [user]
    is its mapping and [isAuthenticated] is true. *)
Theorem provider_user_implies_application_user tr (su : SupabaseUser) :
  supabaseUser (run tr initial) = Some su ->
  user (run tr initial) = Some (appUser_startup su) /\
  isAuthenticated (run tr initial) = true.
Proof.
  intros Hsu.
  assert (user (run tr initial) = Some (appUser_startup su)) as Hu.
  { apply (run_provider_user_mapped tr initial); [intros ? [=]|done]. }
  split; [done|]. unfold isAuthenticated. by rewrite Hu.
Qed.

Lemma provider_user_implies_application_user_example :
  user (run [EvSignInCall "a@x.com" "hunter2";
             EvAuthChange "SIGNED_IN" (session_of_report (Some example_session))]
          initial)
  = Some (appUser_startup example_session) /\
  isAuthenticated
    (run [EvSignInCall "a@x.com" "hunter2";
          EvAuthChange "SIGNED_IN" (session_of_report (Some example_session))]
       initial) = true.
Proof.
  apply (provider_user_implies_application_user
           [EvSignInCall "a@x.com" "hunter2";
            EvAuthChange "SIGNED_IN" (session_of_report (Some example_session))]
           example_session).
  reflexivity.
Defined.

(** X6: an application user held after a trace was either held before it
    or is the mapping of a provider user that one of the trace's session
    events carried. *)
Theorem application_user_origin tr st (au : User) :
  user (run tr st) = Some au ->
  user st = Some au \/
  exists su, su ∈ omap carried_user tr /\ au = appUser_startup su.
Proof. apply run_user_origin. Qed.

Lemma application_user_origin_example :
  user initial = Some example_user \/
  exists su,
    su ∈ omap carried_user [EvStartup (Fulfilled (Some example_session))] /\
    example_user = appUser_startup su.
Proof.
  apply (application_user_origin
           [EvStartup (Fulfilled (Some example_session))] initial example_user).
  reflexivity.
Defined.

(** X7: nothing but a session event carrying a user authenticates.  From a
    state without application user, a trace whose events carry no provider
    user (calls of [signIn] and [signOut] with any provider answer, session
    checks without a user) ends with [isAuthenticated] false. *)
Theorem no_carried_user_no_authentication tr st :
  user st = None ->
  omap carried_user tr = [] ->
  user (run tr st) = None /\ isAuthenticated (run tr st) = false.
Proof.
  intros Hst Hnone.
  assert (user (run tr st) = None) as Hu.
  { destruct (user (run tr st)) as [au|] eqn:Hau; [|done].
    apply run_user_origin in Hau as [Hheld|(su & Hin & _)]; [congruence|].
    rewrite Hnone in Hin. by apply elem_of_nil in Hin. }
  split; [done|]. unfold isAuthenticated. by rewrite Hu.
Qed.

Lemma no_carried_user_no_authentication_example :
  user (run [EvSignInCall "a@x.com" "hunter2";
             EvSignInSettled (accepting_provider "a@x.com" "hunter2")] initial)
  = None /\
  isAuthenticated
    (run [EvSignInCall "a@x.com" "hunter2";
          EvSignInSettled (accepting_provider "a@x.com" "hunter2")] initial)
  = false.
Proof.
  apply (no_carried_user_no_authentication
           [EvSignInCall "a@x.com" "hunter2";
            EvSignInSettled (accepting_provider "a@x.com" "hunter2")] initial);
    reflexivity.
Defined.

(** X8: three events fix the whole state whatever came before them: a
    change event (by its session alone, the event kind playing no part, and
    a session without user counting as none), a startup fetch that carries
    a user, and a fulfilled [signOut]. *)
Theorem history_is_overwritten tr st (event : string) (session : option Session)
    (u : SupabaseUser) (resp : JsVal) :
  run (tr ++ [EvAuthChange event session]) st
  = {| user := appUser_change <$> session_user_opt session;
       supabaseUser := session_user_opt session;
       isLoading := false |} /\
  run (tr ++ [EvStartup (Fulfilled (Some u))]) st
  = {| user := Some (appUser_startup u);
       supabaseUser := Some u;
       isLoading := false |} /\
  run (tr ++ [EvSignOutSettled (Fulfilled resp)]) st
  = {| user := None; supabaseUser := None; isLoading := false |}.
Proof.
  rewrite !run_app. split_and!; [|reflexivity..].
  cbn. unfold on_authStateChange. by destruct (session_user_opt session).
Qed.

(** X9: the startup callback and the change listener give the same state
    exactly when the report is a session or no application user is held. *)
Theorem callbacks_agree_iff (event : string) (r : Report) st :
  on_getCurrentUser r st = on_authStateChange event (session_of_report r) st
  <-> (is_Some r \/ user st = None).
Proof.
  split.
  - intros Heq. destruct r as [u|]; [left; by eexists|right].
    apply (f_equal user) in Heq. exact Heq.
  - intros [[u ->]|Hnone].
    + apply callbacks_agree_on_session.
    + by apply callbacks_agree_when_signed_out.
Qed.

Lemma callbacks_agree_iff_example :
  on_getCurrentUser None initial
  = on_authStateChange "INITIAL_SESSION" (session_of_report None) initial.
Proof.
  apply (callbacks_agree_iff "INITIAL_SESSION" None initial).
  right. reflexivity.
Defined.

End Traces.

(** * Calls that fail, calls that overlap with events, and the hook *)

Section Calls.

Implicit Types (st : State) (during : list Event).

(** X10: there is no [try]/[finally] around the provider calls.  When the
    provider's promise rejects, [signIn] and [signOut] reject with the same
    reason and run nothing after the [await]: the state is what the events
    delivered meanwhile made of it, so with no such event [isLoading] is
    left true and [signOut] has not cleared the user. *)
Theorem rejected_call_skips_cleanup
    (auth_signIn : string -> string -> Settled AuthResponse)
    (email password : string) (reason : JsVal) during st :
  auth_signIn email password = Rejected reason ->
  signIn auth_signIn email password during st
  = (Thrown reason, run during (signIn_begin st)) /\
  signOut (Rejected reason) during st
  = (Thrown reason, run during (signOut_begin st)) /\
  snd (signIn auth_signIn email password [] st) = setIsLoading true st /\
  snd (signOut (Rejected reason) [] st) = setIsLoading true st /\
  isAuthenticated (snd (signOut (Rejected reason) [] st)) = isAuthenticated st.
Proof.
  intros Hrej. unfold signIn. rewrite Hrej. split_and!; reflexivity.
Qed.

Lemma rejected_call_skips_cleanup_example :
  signIn failing_provider "a@x.com" "hunter2" [] initial
  = (Thrown (JObj [("message", JStr "Failed to fetch")]), run [] (signIn_begin initial)) /\
  signOut (Rejected (JObj [("message", JStr "Failed to fetch")])) [] initial
  = (Thrown (JObj [("message", JStr "Failed to fetch")]), run [] (signOut_begin initial)) /\
  snd (signIn failing_provider "a@x.com" "hunter2" [] initial)
  = setIsLoading true initial /\
  snd (signOut (Rejected (JObj [("message", JStr "Failed to fetch")])) [] initial)
  = setIsLoading true initial /\
  isAuthenticated
    (snd (signOut (Rejected (JObj [("message", JStr "Failed to fetch")])) [] initial))
  = isAuthenticated initial.
Proof.
  apply (rejected_call_skips_cleanup failing_provider "a@x.com" "hunter2"
           (JObj [("message", JStr "Failed to fetch")]) [] initial).
  reflexivity.
Defined.

(** X11: when the provider answers [signIn] and the last event delivered
    during the [await] is a change event with a session, [signIn] returns
    the provider's error indicator with the state signed in as that
    session's user and [isLoading] false, whatever the prior state and the
    earlier events. *)
Theorem signIn_with_session_event
    (auth_signIn : string -> string -> Settled AuthResponse)
    (email password event : string) (resp : AuthResponse) (u : SupabaseUser)
    during st :
  auth_signIn email password = Fulfilled resp ->
  signIn auth_signIn email password
    (during ++ [EvAuthChange event (session_of_report (Some u))]) st
  = (Returned {| error := resp_error resp |},
     {| user := Some (appUser_change u);
        supabaseUser := Some u;
        isLoading := false |}).
Proof.
  intros Hresp. unfold signIn. rewrite Hresp, run_app. reflexivity.
Qed.

Lemma signIn_with_session_event_example :
  signIn accepting_provider "a@x.com" "hunter2"
    ([] ++ [EvAuthChange "SIGNED_IN" (session_of_report (Some example_session))])
    initial
  = (Returned {| error := resp_error {| resp_data := JNull; resp_error := JNull |} |},
     {| user := Some (appUser_change example_session);
        supabaseUser := Some example_session;
        isLoading := false |}).
Proof.
  apply (signIn_with_session_event accepting_provider "a@x.com" "hunter2"
           "SIGNED_IN" {| resp_data := JNull; resp_error := JNull |}
           example_session [] initial).
  reflexivity.
Defined.

(** X12: [useAuth] never throws.  [createContext] was given a default
    object, so the [!context] guard cannot fire: under an [AuthProvider]
    the hook returns that provider's value, and with no provider at all it
    returns the default, which reports [isLoading] true and
    [isAuthenticated] false and whose [signIn] answers [{ error: null }] for
    every credential, like its [signOut] without calling the provider or
    changing any state. *)
Theorem useAuth_never_throws (ancestors : list State)
    (auth_signIn : string -> string -> Settled AuthResponse)
    (email password : string) (auth_signOut : Settled JsVal) during st :
  exists context,
    useAuth ancestors = Returned context /\
    context = match ancestors with
              | nearest :: _ => provider_value nearest
              | [] => AuthContext_default
              end /\
    (ancestors = [] ->
     ctx_user context = None /\
     ctx_isAuthenticated context = false /\
     ctx_isLoading context = true /\
     ctx_signIn context auth_signIn email password during st
     = (Returned {| error := JNull |}, st) /\
     ctx_signOut context auth_signOut during st = (Returned tt, st)).
Proof.
  destruct ancestors as [|nearest rest].
  - exists AuthContext_default. split_and!; try reflexivity.
    intros _. split_and!; reflexivity.
  - exists (provider_value nearest). split_and!; try reflexivity.
    intros [=].
Qed.

Lemma useAuth_never_throws_example :
  exists context,
    useAuth [] = Returned context /\
    ctx_isLoading context = true /\
    ctx_signIn context failing_provider "a@x.com" "hunter2" [] initial
    = (Returned {| error := JNull |}, initial).
Proof.
  destruct (useAuth_never_throws [] failing_provider "a@x.com" "hunter2"
              (Fulfilled JNull) [] initial)
    as (context & Hret & _ & Houtside).
  destruct (Houtside eq_refl) as (_ & _ & Hloading & HsignIn & _).
  exists context. split_and!; assumption.
Defined.

End Calls.

(** * The loading flag and the outcome of [signIn], in full *)

Section Loading.

Implicit Types (st : State) (ev : Event) (tr during : list Event).

Lemma step_keeps_loading ev st :
  clears_loading ev = false -> isLoading st = true -> isLoading (step ev st) = true.
Proof.
  intros Hev Hst.
  destruct ev as [[?|?]| ? ? |? ?|[?|?]| |[?|?]]; try discriminate;
    first [reflexivity | exact Hst].
Qed.

Lemma run_keeps_loading tr : forall st,
  existsb clears_loading tr = false ->
  isLoading st = true -> isLoading (run tr st) = true.
Proof.
  induction tr as [|ev tr IH]; simpl; [done|].
  intros st [Hev Htr]%orb_false_elim Hst.
  by apply IH, step_keeps_loading.
Qed.

Lemma step_clears_loading ev st :
  clears_loading ev = true -> isLoading (step ev st) = false.
Proof.
  destruct ev as [[?|?]| ? ? |? ?|[?|?]| |[?|?]]; try discriminate; reflexivity.
Qed.

(** C6: [signIn] sets [isLoading] and calls the provider with
    the given credentials, and the events delivered during the [await] run
    from that state.  When the provider's promise fulfils, [signIn] returns
    an object holding the response's error indicator, null included, and
    [isLoading] is false; when the promise rejects, [signIn] rejects with
    the same reason and [isLoading] is not reset. *)
Theorem signIn_returns_error_or_rethrows
    (auth_signIn : string -> string -> Settled AuthResponse)
    (email password : string) during st :
  signIn auth_signIn email password during st
  = match auth_signIn email password with
    | Fulfilled resp =>
        (Returned {| error := resp_error resp |},
         setIsLoading false (run during (setIsLoading true st)))
    | Rejected reason =>
        (Thrown reason, run during (setIsLoading true st))
    end /\
  isLoading (setIsLoading true st) = true /\
  (forall resp, auth_signIn email password = Fulfilled resp ->
     fst (signIn auth_signIn email password during st)
     = Returned {| error := resp_error resp |} /\
     isLoading (snd (signIn auth_signIn email password during st)) = false) /\
  (forall reason, auth_signIn email password = Rejected reason ->
     fst (signIn auth_signIn email password during st) = Thrown reason /\
     isLoading (snd (signIn auth_signIn email password [] st)) = true).
Proof.
  unfold signIn. split_and!.
  - by destruct (auth_signIn email password).
  - reflexivity.
  - by intros resp ->.
  - by intros reason ->.
Qed.

Lemma signIn_returns_error_or_rethrows_example :
  (fst (signIn refusing_provider "a@x.com" "hunter2" [] initial)
   = Returned {| error := JObj [("message", JStr "Invalid login credentials")] |} /\
   isLoading (snd (signIn refusing_provider "a@x.com" "hunter2" [] initial)) = false) /\
  (fst (signIn failing_provider "a@x.com" "hunter2" [] initial)
   = Thrown (JObj [("message", JStr "Failed to fetch")]) /\
   isLoading (snd (signIn failing_provider "a@x.com" "hunter2" [] initial)) = true).
Proof.
  split.
  - apply (proj1 (proj2 (proj2
      (signIn_returns_error_or_rethrows refusing_provider "a@x.com" "hunter2"
         [] initial)))
      {| resp_data := JNull;
         resp_error := JObj [("message", JStr "Invalid login credentials")] |}).
    reflexivity.
  - apply (proj2 (proj2 (proj2
      (signIn_returns_error_or_rethrows failing_provider "a@x.com" "hunter2"
         [] initial)))).
    reflexivity.
Defined.

(** C6, counterexample to "never throws": with a provider whose promise
    rejects, [signIn] throws instead of returning an error indicator, and
    [isLoading] is still true afterwards. *)
Lemma signIn_throws_when_provider_rejects :
  fst (signIn failing_provider "a@x.com" "hunter2" [] initial)
  = Thrown (JObj [("message", JStr "Failed to fetch")]) /\
  isLoading (snd (signIn failing_provider "a@x.com" "hunter2" [] initial)) = true /\
  ~ (exists result,
       fst (signIn failing_provider "a@x.com" "hunter2" [] initial)
       = Returned result) /\
  ~ (isLoading (snd (signIn failing_provider "a@x.com" "hunter2" [] initial))
     = false).
Proof.
  split_and!; [reflexivity..| |]; cbn.
  - intros [result [=]].
  - discriminate.
Qed.

(** C7: [isLoading] starts true and stays true until the first
    event that clears it, which is a startup fetch that resolves, a change
    event, or a [signIn] or [signOut] whose provider promise fulfils; after
    any such event it is false.  While no explicit call is made it is
    therefore false exactly when a session check has resolved.  From a
    state where it is false, an event makes it true exactly when that
    event is a call of [signIn] or [signOut]. *)
Theorem isLoading_timeline_with_calls tr st ev :
  isLoading initial = true /\
  (existsb clears_loading tr = false -> isLoading (run tr initial) = true) /\
  (clears_loading ev = true -> isLoading (run (tr ++ [ev]) st) = false) /\
  (forallb mount_effect_event tr = true ->
   (isLoading (run tr initial) = false <->
    existsb resolves_session_check tr = true)) /\
  (isLoading st = false ->
   (isLoading (step ev st) = true <-> starts_explicit_call ev = true)).
Proof.
  split_and!; [reflexivity| | | |].
  - intros Htr. by apply run_keeps_loading.
  - intros Hev. rewrite run_app. simpl. by apply step_clears_loading.
  - intros Htr. rewrite (run_mount_effect_isLoading _ _ Htr).
    by destruct (existsb resolves_session_check tr).
  - intros Hst. by rewrite (step_from_not_loading _ _ Hst).
Qed.

Lemma isLoading_timeline_with_calls_example :
  isLoading (run [EvSignInCall "a@x.com" "hunter2";
                  EvSignInSettled (failing_provider "a@x.com" "hunter2")]
               initial) = true /\
  isLoading (run ([EvSignInCall "a@x.com" "hunter2"]
                  ++ [EvSignInSettled (refusing_provider "a@x.com" "hunter2")])
               initial) = false /\
  isLoading (run [EvStartup (Rejected JNull);
                  EvAuthChange "INITIAL_SESSION" None] initial) = false /\
  isLoading (step (EvSignOutCall)
               (run [EvAuthChange "INITIAL_SESSION" None] initial)) = true.
Proof.
  destruct (isLoading_timeline_with_calls
              [EvSignInCall "a@x.com" "hunter2";
               EvSignInSettled (failing_provider "a@x.com" "hunter2")]
              initial EvSignOutCall) as (_ & Hstays & _).
  destruct (isLoading_timeline_with_calls
              [EvSignInCall "a@x.com" "hunter2"] initial
              (EvSignInSettled (refusing_provider "a@x.com" "hunter2")))
    as (_ & _ & Hclears & _).
  destruct (isLoading_timeline_with_calls
              [EvStartup (Rejected JNull); EvAuthChange "INITIAL_SESSION" None]
              (run [EvAuthChange "INITIAL_SESSION" None] initial)
              EvSignOutCall) as (_ & _ & _ & Hmount & Hcall).
  split_and!.
  - apply Hstays. reflexivity.
  - apply Hclears. reflexivity.
  - apply Hmount; reflexivity.
  - apply Hcall; reflexivity.
Defined.

(** C7, counterexample to "exactly when a session check resolves": a
    [signIn] called right after mount and answered by the provider clears
    [isLoading] although neither the startup fetch nor any change event has
    resolved. *)
Lemma isLoading_cleared_before_session_check :
  isLoading (run [EvSignInCall "a@x.com" "hunter2";
                  EvSignInSettled (refusing_provider "a@x.com" "hunter2")]
               initial) = false /\
  existsb resolves_session_check
    [EvSignInCall "a@x.com" "hunter2";
     EvSignInSettled (refusing_provider "a@x.com" "hunter2")] = false /\
  ~ (isLoading (run [EvSignInCall "a@x.com" "hunter2";
                     EvSignInSettled (refusing_provider "a@x.com" "hunter2")]
                  initial) = false ->
     existsb resolves_session_check
       [EvSignInCall "a@x.com" "hunter2";
        EvSignInSettled (refusing_provider "a@x.com" "hunter2")] = true).
Proof.
  split_and!; [reflexivity..|].
  intros Himpl. specialize (Himpl eq_refl). discriminate.
Qed.

End Loading.
